(** * The audit agent's execution loop ([agent.py], [run_audit])

    A shallow embedding of the conversation loop of [run_audit]: the message
    history, the dispatch of the tool calls requested by the model, the
    parsing and truncation of tool output, the error substitution and the
    bounded [while] loop, followed by the properties of the loop that the
    specification states. *)

From Stdlib Require Import List String Ascii Arith Lia Bool DecimalString.
Import ListNotations.
Local Open Scope string_scope.
Set Warnings "-abstract-large-number,-register-all".

(** ** Strings

    A Python [str] is modelled by [string]; [len] is [String.length], [+] is
    [append], and the slice [s[:n]] is [substring 0 n s] (both clamp at the
    end of the string). *)

Module Str.

Definition slice_to (n : nat) (s : string) : string := substring 0 n s.

(** ["c" * n] *)
Fixpoint repeat (c : string) (n : nat) : string :=
  match n with
  | O => ""
  | S n' => c ++ repeat c n'
  end.

End Str.

(** ** Truncation of tool output (lines 105-107) *)

Definition TRUNCATION_MARKER : string := "... [Truncated]".

Section Truncation.

Variable limit : nat.

(** [if len(content_str) > limit: content_str = content_str[:limit] + marker] *)
Definition truncate_at (content_str : string) : string :=
  if (limit <? String.length content_str)%nat
  then Str.slice_to limit content_str ++ TRUNCATION_MARKER
  else content_str.

End Truncation.

Definition TRUNCATION_LIMIT : nat := 20000.

Definition truncate : string -> string := truncate_at TRUNCATION_LIMIT.


(** ** Data model *)

(** The arguments of a tool call: a [dict] from strings to JSON values, passed
    on to the tool unchanged. *)
Inductive Json : Type :=
| JNull
| JBool (b : bool)
| JNumber (literal : string)
| JString (s : string)
| JArray (items : list Json)
| JObject (fields : list (string * Json)).

Definition Args : Type := list (string * Json).

(** One entry of [response.tool_calls]: [{"name": .., "args": .., "id": ..}]. *)
Record ToolCall : Type := mkToolCall {
  tc_name : string;
  tc_args : Args;
  tc_id : string
}.

(** The reply of the model: [response.content] and [response.tool_calls]. *)
Record AIMessage : Type := mkAIMessage {
  content : string;
  tool_calls : list ToolCall
}.

(** The entries of [messages]. *)
Inductive Message : Type :=
| SystemMessage (content : string)
| HumanMessage (content : string)
| AI (response : AIMessage)
| ToolMessage (content : string) (tool_call_id : string) (name : string).

(** The parts of a tool result: only some of them have a [text] attribute. *)
Inductive ContentItem : Type :=
| TextContent (text : string)
| ImageContent (data : string) (mimeType : string)
| EmbeddedResource (uri : string).

(** The value returned by [session.call_tool]; [None] stands for a result
    without a [content] attribute (or whose [content] is [None]). *)
Record CallToolResult : Type := mkCallToolResult {
  result_content : option (list ContentItem)
}.

(** The outcome of an awaited call: a value, or an exception [e] of class
    [Exception], kept as [str(e)].  Interrupts of the process
    ([KeyboardInterrupt], task cancellation), which are not of class
    [Exception], are outside the model. *)
Inductive Result (A : Type) : Type :=
| Returned (a : A)
| Raised (e : string).
Arguments Returned {A} a.
Arguments Raised {A} e.

(** ** Constants of the module *)

Definition nl : string := String (ascii_of_nat 10) "".
Definition dq : string := String (ascii_of_nat 34) "".

Definition TARGET_URL : string := "https://uni.sze.hu".

Definition GDPR_AUDITOR_PROMPT : string :=
  nl ++ "You are a GDPR Compliance Auditor. " ++ nl ++
  "Your goal is to audit the provided URL for a Cookie Consent Banner." ++ nl ++
  nl ++
  "**Instructions:**" ++ nl ++
  "1. Navigate to the URL." ++ nl ++
  "2. Read the visible text on the page." ++ nl ++
  "3. Analyze the text you retrieved:" ++ nl ++
  "   - Is there text mentioning " ++ dq ++ "Cookies" ++ dq ++ ", " ++ dq ++
  "Privacy" ++ dq ++ ", or " ++ dq ++ "Consent" ++ dq ++ "?" ++ nl ++
  "   - Are there " ++ dq ++ "Accept" ++ dq ++ " or " ++ dq ++ "Reject" ++ dq ++
  " options visible in the text?" ++ nl ++
  "4. Produce a FINAL REPORT summarizing your findings." ++ nl ++
  nl ++
  "Do not stop until you have retrieved the text and generated the report." ++
  nl.

Definition max_iterations : nat := 10.

Definition NO_TEXT_PLACEHOLDER : string :=
  "Tool executed (no text output returned).".

Definition ERROR_PREFIX : string := "Error executing tool: ".

(** The initial conversation state (lines 56-59). *)
Definition initial_messages : list Message :=
  [ SystemMessage GDPR_AUDITOR_PROMPT;
    HumanMessage ("Audit this URL: " ++ TARGET_URL) ].

(** ** Parsing the content of a tool result (lines 97-103) *)

(** [if hasattr(item, 'text'): content_str += item.text] *)
Definition add_item_text (content_str : string) (item : ContentItem) : string :=
  match item with
  | TextContent text => content_str ++ text
  | _ => content_str
  end.

Definition parse_content (tool_result : CallToolResult) : string :=
  match result_content tool_result with
  | Some ((_ :: _) as items) => fold_left add_item_text items ""
  | _ => NO_TEXT_PLACEHOLDER
  end.

(** What the [try] block computes from a returned result, and what the
    [except] clause substitutes for a raised exception (lines 92-110). *)
Definition content_of_outcome (outcome : Result CallToolResult) : string :=
  match outcome with
  | Returned tool_result => truncate (parse_content tool_result)
  | Raised e => ERROR_PREFIX ++ e
  end.

(** ** What the run prints *)

Inductive Printed : Type :=
| PStarting
| PReportBanner
| PReport (content : string)
| PReportRule
| PStep (iteration : nat) (n_tools : nat)
| PExecuting (tool_name : string)
| PMaxIterations.

Definition MAX_ITERATIONS_DIAGNOSTIC : string :=
  "Max iterations reached. Agent got stuck in a loop.".

Definition str_of_nat (n : nat) : string :=
  DecimalString.NilEmpty.string_of_uint (Nat.to_uint n).

(** The argument of each [print] call. *)
Definition render (p : Printed) : string :=
  match p with
  | PStarting => nl ++ "Starting Audit for " ++ TARGET_URL ++ "..." ++ nl
  | PReportBanner =>
      nl ++ Str.repeat "=" 20 ++ " GDPR AUDIT REPORT " ++ Str.repeat "=" 20 ++ nl
  | PReport c => c
  | PReportRule => nl ++ Str.repeat "=" 60
  | PStep iteration n =>
      "Step " ++ str_of_nat iteration ++ ": Agent wants to use " ++
      str_of_nat n ++ " tool(s)..."
  | PExecuting tool_name => "   > Executing: " ++ tool_name
  | PMaxIterations => MAX_ITERATIONS_DIAGNOSTIC
  end.

(** ** The loop

    The model provider and the tool session are the two outside services of
    the loop.  Each is a function of the state of the outside world, which
    it may change; nothing else is assumed about them. *)

(** How the [while] loop was left: by [break], or by its condition. *)
Inductive Exit : Type :=
| Break
| Fallthrough.

Section Agent.

Variable World : Type.

(** [await llm_with_tools.ainvoke(messages)] *)
Variable ainvoke : World -> list Message -> Result AIMessage * World.

(** [await session.call_tool(tool_name, arguments=tool_args)] *)
Variable call_tool : World -> string -> Args -> Result CallToolResult * World.

(** The state a run threads: the outside world, the list [messages], what
    was printed, and the histories the model was invoked on so far. *)
Record Env : Type := mkEnv {
  world : World;
  messages : list Message;
  stdout : list Printed;
  invocations : list (list Message)
}.

(** A computation that reads and updates the state and either returns or
    raises. *)
Definition M (A : Type) : Type := Env -> Result A * Env.

Definition ret {A : Type} (a : A) : M A := fun env => (Returned a, env).

Definition bind {A B : Type} (m : M A) (k : A -> M B) : M B :=
  fun env =>
    match m env with
    | (Returned a, env') => k a env'
    | (Raised e, env') => (Raised e, env')
    end.

(** [try: m  except Exception as e: handler(str(e))] *)
Definition try_except {A : Type} (m : M A) (handler : string -> M A) : M A :=
  fun env =>
    match m env with
    | (Returned a, env') => (Returned a, env')
    | (Raised e, env') => handler e env'
    end.

Definition print (p : Printed) : M unit :=
  fun env =>
    (Returned tt,
     mkEnv (world env) (messages env) (stdout env ++ [p]) (invocations env)).

(** [messages.append(m)] *)
Definition messages_append (m : Message) : M unit :=
  fun env =>
    (Returned tt,
     mkEnv (world env) (messages env ++ [m]) (stdout env) (invocations env)).

Definition await_ainvoke : M AIMessage :=
  fun env =>
    let (r, w) := ainvoke (world env) (messages env) in
    (r, mkEnv w (messages env) (stdout env)
              (invocations env ++ [messages env])).

Definition await_call_tool (tool_name : string) (tool_args : Args)
  : M CallToolResult :=
  fun env =>
    let (r, w) := call_tool (world env) tool_name tool_args in
    (r, mkEnv w (messages env) (stdout env) (invocations env)).

Notation "x <- m ;; k" := (bind m (fun x => k))
  (at level 61, m at next level, right associativity).
Notation "m ;; k" := (bind m (fun _ => k))
  (at level 61, right associativity).

(** [for x in xs: body(x)] *)
Fixpoint for_each {A : Type} (xs : list A) (body : A -> M unit) : M unit :=
  match xs with
  | [] => ret tt
  | x :: xs' => body x ;; for_each xs' body
  end.

(** The body of [for tool_call in response.tool_calls] (lines 86-117). *)
Definition dispatch_tool_call (tool_call : ToolCall) : M unit :=
  let tool_name := tc_name tool_call in
  let tool_args := tc_args tool_call in
  let tool_id := tc_id tool_call in
  print (PExecuting tool_name) ;;
  content_str <-
    try_except
      (tool_result <- await_call_tool tool_name tool_args ;;
       let content_str := parse_content tool_result in
       ret (truncate content_str))
      (fun e => ret (ERROR_PREFIX ++ e)) ;;
  messages_append (ToolMessage content_str tool_id tool_name).

(** Lines 72-117: what an iteration does with the reply of the model. *)
Definition process_response (iteration : nat) (response : AIMessage)
  : M Exit :=
  messages_append (AI response) ;;
  match tool_calls response with
  | [] =>
      print PReportBanner ;;
      print (PReport (content response)) ;;
      print PReportRule ;;
      ret Break
  | _ :: _ =>
      print (PStep iteration (List.length (tool_calls response))) ;;
      for_each (tool_calls response) dispatch_tool_call ;;
      ret Fallthrough
  end.

(** The body of the [while] loop, after [iteration += 1] (lines 71-117). *)
Definition loop_body (iteration : nat) : M Exit :=
  response <- await_ainvoke ;;
  process_response iteration response.

(** [while iteration < max_iterations: iteration += 1; ...].  The result is
    the final value of [iteration] and how the loop was left; [None] when
    [fuel] runs out first (it never does, see [while_loop_counts]). *)
Fixpoint while_loop (fuel : nat) (iteration : nat) : M (option (nat * Exit)) :=
  if (iteration <? max_iterations)%nat then
    match fuel with
    | O => ret None
    | S fuel' =>
        let iteration := S iteration in
        exit <- loop_body iteration ;;
        match exit with
        | Break => ret (Some (iteration, Break))
        | Fallthrough => while_loop fuel' iteration
        end
    end
  else ret (Some (iteration, Fallthrough)).

(** Lines 119-120. *)
Definition after_loop (iteration : nat) : M unit :=
  if (max_iterations <=? iteration)%nat then print PMaxIterations else ret tt.

(** [run_audit] from the initial conversation state on (lines 55-120), in
    a session that is already connected. *)
Definition run_audit_from (fuel : nat) : M (option (nat * Exit)) :=
  (fun env =>
     (Returned tt,
      mkEnv (world env) initial_messages (stdout env) (invocations env))) ;;
  print PStarting ;;
  r <- while_loop fuel 0 ;;
  match r with
  | None => ret None
  | Some (iteration, exit) => after_loop iteration ;; ret r
  end.

Definition initial_env (w : World) : Env := mkEnv w [] [] [].

Definition run_audit (w : World) : Result (option (nat * Exit)) * Env :=
  run_audit_from max_iterations (initial_env w).

End Agent.

Arguments ret {World A} a env.
Arguments bind {World A B} m k env.
Arguments try_except {World A} m handler env.
Arguments print {World} p env.
Arguments messages_append {World} m env.
Arguments await_ainvoke {World} ainvoke env.
Arguments await_call_tool {World} call_tool tool_name tool_args env.
Arguments for_each {World A} xs body env.
Arguments dispatch_tool_call {World} call_tool tool_call env.
Arguments process_response {World} call_tool iteration response env.
Arguments loop_body {World} ainvoke call_tool iteration env.
Arguments while_loop {World} ainvoke call_tool fuel iteration env.
Arguments after_loop {World} iteration env.
Arguments run_audit_from {World} ainvoke call_tool fuel env.
Arguments initial_env {World} w.
Arguments run_audit {World} ainvoke call_tool w.
Arguments world {World} e.
Arguments messages {World} e.
Arguments stdout {World} e.
Arguments invocations {World} e.
Arguments mkEnv {World} world messages stdout invocations.

(** ** Notions used to state the properties *)

(** The messages that dispatching [tcs] in order appends, and the world it
    leaves, starting in world [w]. *)
Fixpoint tool_results {World : Type}
    (call_tool : World -> string -> Args -> Result CallToolResult * World)
    (w : World) (tcs : list ToolCall) : list Message * World :=
  match tcs with
  | [] => ([], w)
  | tc :: rest =>
      let (outcome, w1) := call_tool w (tc_name tc) (tc_args tc) in
      let (ms, w2) := tool_results call_tool w1 rest in
      (ToolMessage (content_of_outcome outcome) (tc_id tc) (tc_name tc) :: ms,
       w2)
  end.

(** What dispatching [tcs] prints. *)
Definition executing (tcs : list ToolCall) : list Printed :=
  map (fun tc => PExecuting (tc_name tc)) tcs.

(** [m] is a tool result that answers the request [tc]. *)
Definition answers (tc : ToolCall) (m : Message) : Prop :=
  exists c, m = ToolMessage c (tc_id tc) (tc_name tc).

Definition is_AI (m : Message) : bool :=
  match m with AI _ => true | _ => false end.

Definition is_ToolMessage (m : Message) : bool :=
  match m with ToolMessage _ _ _ => true | _ => false end.

Definition is_report (p : Printed) : bool :=
  match p with PReport _ => true | _ => false end.

Definition count_AI (h : list Message) : nat :=
  List.length (filter is_AI h).




(** The ways an iteration of the loop can go. *)
Section Outcomes.

Variable World : Type.
Variable ainvoke : World -> list Message -> Result AIMessage * World.
Variable call_tool : World -> string -> Args -> Result CallToolResult * World.

(** The state in which the reply of the model is processed. *)
Definition asked (env : Env World) (w : World) : Env World :=
  mkEnv w (messages env) (stdout env) (invocations env ++ [messages env]).

(** The three ways an iteration can go. *)
Inductive body_outcome (iteration : nat) (env : Env World)
  : Result Exit * Env World -> Prop :=
| body_raised (e : string) (w : World) :
    ainvoke (world env) (messages env) = (Raised e, w) ->
    body_outcome iteration env (Raised e, asked env w)
| body_final (response : AIMessage) (w : World) :
    ainvoke (world env) (messages env) = (Returned response, w) ->
    tool_calls response = [] ->
    body_outcome iteration env
      (Returned Break,
       mkEnv w (messages env ++ [AI response])
         (stdout env
          ++ [PReportBanner; PReport (content response); PReportRule])
         (invocations env ++ [messages env]))
| body_tools (response : AIMessage) (w w' : World) (ms : list Message) :
    ainvoke (world env) (messages env) = (Returned response, w) ->
    tool_calls response <> [] ->
    tool_results call_tool w (tool_calls response) = (ms, w') ->
    body_outcome iteration env
      (Returned Fallthrough,
       mkEnv w' (messages env ++ AI response :: ms)
         (stdout env
          ++ PStep iteration (List.length (tool_calls response))
             :: executing (tool_calls response))
         (invocations env ++ [messages env])).

End Outcomes.

Arguments asked {World} env w.
Arguments body_outcome {World} ainvoke call_tool iteration env _.


(** The state in which the loop is entered. *)
Definition loop_entry {World : Type} (w : World) : Env World :=
  mkEnv w initial_messages [PStarting] [].

(** The textual parts of a raw result, in order. *)
Fixpoint texts_of (items : list ContentItem) : list string :=
  match items with
  | [] => []
  | TextContent text :: rest => text :: texts_of rest
  | _ :: rest => texts_of rest
  end.

Definition textual_parts (tool_result : CallToolResult) : list string :=
  match result_content tool_result with
  | Some items => texts_of items
  | None => []
  end.

(** The content of a successful invocation in the words of the
    specification: the concatenation of the textual parts, or the
    placeholder when there is none. *)
Definition spec_success_content (tool_result : CallToolResult) : string :=
  match textual_parts tool_result with
  | [] => NO_TEXT_PLACEHOLDER
  | texts => String.concat "" texts
  end.

(** The content of the message appended for a returned result, where the
    result has no content part at all (the placeholder) or has textual parts
    (their concatenation, truncated); a result whose parts are all
    non-textual is left open ([None]). *)
Definition known_success_content (tool_result : CallToolResult)
  : option string :=
  match result_content tool_result with
  | None | Some [] => Some NO_TEXT_PLACEHOLDER
  | Some items =>
      match texts_of items with
      | [] => None
      | texts => Some (truncate (String.concat "" texts))
      end
  end.

(** ** Scripted runs

    Concrete outside worlds: the world is the number of model invocations
    made so far, the model follows a script of replies, and the tools answer
    by name. *)

Module Scenario.

Definition scripted_ainvoke (script : list AIMessage)
    (w : nat) (_ : list Message) : Result AIMessage * nat :=
  (match nth_error script w with
   | Some response => Returned response
   | None => Raised "model unavailable"
   end, S w).

Definition tools (w : nat) (tool_name : string) (_ : Args)
  : Result CallToolResult * nat :=
  (if String.eqb tool_name "fetch_text" then
     Returned (mkCallToolResult (Some [TextContent "Hello"]))
   else if String.eqb tool_name "take_snapshot" then
     Returned (mkCallToolResult
                 (Some [TextContent (Str.repeat "a" 25000)]))
   else if String.eqb tool_name "take_screenshot" then
     Returned (mkCallToolResult (Some [ImageContent "iVBORw0KGgo=" "image/png"]))
   else if String.eqb tool_name "click" then
     Raised "element not found"
   else if String.eqb tool_name "evaluate_script" then
     Raised (Str.repeat "e" 30000)
   else
     Returned (mkCallToolResult (Some [])),
   w).

Definition call (id tool_name : string) : ToolCall :=
  mkToolCall tool_name [("url", JString "https://example.com")] id.

(** The model asks for a tool. *)
Definition wants (tcs : list ToolCall) : AIMessage := mkAIMessage "" tcs.

(** The model answers. *)
Definition says (text : string) : AIMessage := mkAIMessage text [].

Definition fetch : AIMessage := wants [call "call_1" "fetch_text"].

(** Nine replies asking for a tool, then the report as the tenth reply. *)
Definition report_at_tenth : list AIMessage :=
  (repeat fetch 9 ++ [says "FINAL REPORT"])%list.

(** A reply that asks for a tool call on every iteration. *)
Definition never_done : list AIMessage := repeat fetch 10.

(** A reply with both text and tool calls. *)
Definition text_and_calls : AIMessage :=
  mkAIMessage "Let me look at the page first."
    [call "call_1" "fetch_text"; call "call_2" "click"].


Definition env0 : Env nat := mkEnv 0 initial_messages [PStarting] [].

End Scenario.

(** ** Notions for the outcomes of a run *)

Definition is_diagnostic (p : Printed) : bool :=
  match p with PMaxIterations => true | _ => false end.

Definition is_executing (p : Printed) : bool :=
  match p with PExecuting _ => true | _ => false end.

Definition is_step (p : Printed) : bool :=
  match p with PStep _ _ => true | _ => false end.

(** No reply of the model without tool calls: [m] is not such a reply. *)
Definition requests_tools (m : Message) : bool :=
  match m with
  | AI response =>
      match tool_calls response with [] => false | _ :: _ => true end
  | _ => true
  end.

Definition count_ToolMessage (h : list Message) : nat :=
  List.length (filter is_ToolMessage h).

(** The number of tool calls requested by the replies in [h]. *)
Fixpoint requested (h : list Message) : nat :=
  match h with
  | [] => 0
  | AI response :: rest => List.length (tool_calls response) + requested rest
  | _ :: rest => requested rest
  end.

Definition is_prefix_of (h h' : list Message) : Prop :=
  exists rest, h' = (h ++ rest)%list.

(** The progress lines that belong to the replies in [h], the first reply
    being the one of iteration [i]. *)
Fixpoint steps_from (i : nat) (h : list Message) : list Printed :=
  match h with
  | [] => []
  | AI response :: rest =>
      match tool_calls response with
      | [] => steps_from (S i) rest
      | _ :: _ =>
          PStep i (List.length (tool_calls response)) :: steps_from (S i) rest
      end
  | _ :: rest => steps_from i rest
  end.

(** What holds whenever the loop test is reached after [iteration]
    iterations. *)
Record running {World : Type} (iteration : nat) (env : Env World) : Prop :=
  mkRunning {
  running_invocations : List.length (invocations env) = iteration;
  running_replies : count_AI (messages env) = iteration;
  running_requests : forallb requests_tools (messages env) = true;
  running_no_report : existsb is_report (stdout env) = false;
  running_no_diagnostic : existsb is_diagnostic (stdout env) = false;
  running_prefixes :
    Forall (fun h => is_prefix_of h (messages env)) (invocations env);
  running_first :
    match invocations env with
    | [] => messages env = initial_messages
    | h :: _ => h = initial_messages
    end;
  running_initial : is_prefix_of initial_messages (messages env);
  running_executed :
    count_ToolMessage (messages env)
    = List.length (filter is_executing (stdout env));
  running_requested : requested (messages env) = count_ToolMessage (messages env);
  running_steps : filter is_step (stdout env) = steps_from 1 (messages env)
}.




(** A tool session that returns as text what [Scenario.tools] raises for
    [click]. *)
Definition forging_tools (w : nat) (tool_name : string) (_ : Args)
  : Result CallToolResult * nat :=
  (Returned
     (mkCallToolResult
        (Some [TextContent "Error executing tool: element not found"])),
   w).

(** * Properties *)

(** ** Strings *)

Module StrFacts.

Lemma length_append (s t : string) :
  String.length (s ++ t) = String.length s + String.length t.
Proof.
  induction s as [|c s IH]; simpl; [reflexivity|]. now rewrite IH.
Qed.

Lemma append_nil_r (s : string) : s ++ "" = s.
Proof.
  induction s as [|c s IH]; simpl; [reflexivity|]. now rewrite IH.
Qed.

Lemma append_assoc (s t u : string) : (s ++ t) ++ u = s ++ (t ++ u).
Proof.
  induction s as [|c s IH]; simpl; [reflexivity|]. now rewrite IH.
Qed.

Lemma slice_to_all (n : nat) (s : string) :
  String.length s <= n -> Str.slice_to n s = s.
Proof.
  unfold Str.slice_to. revert s.
  induction n as [|n IH]; intros [|c s] H; simpl in *; try reflexivity.
  - lia.
  - f_equal. apply IH. lia.
Qed.

Lemma length_slice_to (n : nat) (s : string) :
  String.length (Str.slice_to n s) = Nat.min n (String.length s).
Proof.
  unfold Str.slice_to. revert s.
  induction n as [|n IH]; intros [|c s]; simpl; try reflexivity.
  now rewrite IH.
Qed.

(** Slicing a string that already starts with an [n]-character slice gives
    that slice back. *)
Lemma slice_to_slice_append (n : nat) (s t : string) :
  n <= String.length s -> Str.slice_to n (Str.slice_to n s ++ t) = Str.slice_to n s.
Proof.
  unfold Str.slice_to. revert s.
  induction n as [|n IH]; intros [|c s] H; simpl in *.
  - now destruct t.
  - now destruct t.
  - lia.
  - f_equal. apply IH. lia.
Qed.

Lemma length_repeat1 (c : ascii) (n : nat) :
  String.length (Str.repeat (String c "") n) = n.
Proof.
  induction n as [|n IH]; simpl; [reflexivity|]. now rewrite IH.
Qed.

Lemma slice_to_repeat1 (c : ascii) (n k : nat) :
  Str.slice_to n (Str.repeat (String c "") (n + k)) = Str.repeat (String c "") n.
Proof.
  unfold Str.slice_to.
  induction n as [|n IH]; simpl.
  - now destruct (Str.repeat (String c "") k).
  - now rewrite IH.
Qed.

End StrFacts.

(** ** Truncation *)

Section TruncationFacts.

Variable limit : nat.

Local Abbreviation truncate_at := (truncate_at limit).

Lemma truncate_at_short (s : string) :
  String.length s <= limit -> truncate_at s = s.
Proof.
  intros H. unfold truncate_at.
  destruct (Nat.ltb_spec limit (String.length s)); [lia | reflexivity].
Qed.

Lemma truncate_at_long (s : string) :
  limit < String.length s ->
  truncate_at s = Str.slice_to limit s ++ TRUNCATION_MARKER.
Proof.
  intros H. unfold truncate_at.
  destruct (Nat.ltb_spec limit (String.length s)); [reflexivity | lia].
Qed.

Lemma length_truncate_at (s : string) :
  String.length (truncate_at s) <= limit + String.length TRUNCATION_MARKER.
Proof.
  unfold truncate_at.
  destruct (Nat.ltb_spec limit (String.length s)) as [H|H].
  - rewrite StrFacts.length_append, StrFacts.length_slice_to. lia.
  - lia.
Qed.

Lemma truncate_at_idempotent (s : string) :
  truncate_at (truncate_at s) = truncate_at s.
Proof.
  destruct (Nat.le_gt_cases (String.length s) limit) as [H|H].
  - now rewrite !(truncate_at_short s H).
  - rewrite (truncate_at_long s H).
    rewrite truncate_at_long.
    + rewrite StrFacts.slice_to_slice_append by lia. reflexivity.
    + rewrite StrFacts.length_append, StrFacts.length_slice_to.
      unfold TRUNCATION_MARKER. simpl String.length. lia.
Qed.

Lemma truncate_at_repeat (c : ascii) (k : nat) :
  truncate_at (Str.repeat (String c "") (limit + S k))
  = Str.repeat (String c "") limit ++ TRUNCATION_MARKER.
Proof.
  rewrite truncate_at_long.
  - now rewrite StrFacts.slice_to_repeat1.
  - rewrite StrFacts.length_repeat1. lia.
Qed.

End TruncationFacts.

Lemma truncate_short (s : string) :
  String.length s <= TRUNCATION_LIMIT -> truncate s = s.
Proof. apply truncate_at_short. Qed.

Lemma truncate_long (s : string) :
  TRUNCATION_LIMIT < String.length s ->
  truncate s = Str.slice_to TRUNCATION_LIMIT s ++ TRUNCATION_MARKER.
Proof. apply truncate_at_long. Qed.

Lemma truncate_25000 (c : ascii) :
  truncate (Str.repeat (String c "") 25000)
  = Str.repeat (String c "") 20000 ++ TRUNCATION_MARKER.
Proof.
  change 25000 with (TRUNCATION_LIMIT + S 4999).
  apply truncate_at_repeat.
Qed.

Lemma length_truncate (s : string) :
  String.length (truncate s)
  <= TRUNCATION_LIMIT + String.length TRUNCATION_MARKER.
Proof. apply length_truncate_at. Qed.



(** ** Parsing *)

Lemma concat_empty_cons (x : string) (xs : list string) :
  String.concat "" (x :: xs) = x ++ String.concat "" xs.
Proof.
  destruct xs as [|y ys]; simpl; [|reflexivity].
  now rewrite StrFacts.append_nil_r.
Qed.

(** The accumulation loop of lines 99-101 appends the textual parts in
    order. *)
Lemma fold_add_item_text (items : list ContentItem) (acc : string) :
  fold_left add_item_text items acc
  = acc ++ String.concat "" (texts_of items).
Proof.
  revert acc. induction items as [|item items IH]; intros acc.
  - simpl. now rewrite StrFacts.append_nil_r.
  - cbn [fold_left]. rewrite IH. destruct item; cbn [add_item_text texts_of];
      try reflexivity.
    now rewrite concat_empty_cons, StrFacts.append_assoc.
Qed.

Lemma parse_content_items (item : ContentItem) (items : list ContentItem) :
  parse_content (mkCallToolResult (Some (item :: items)))
  = String.concat "" (texts_of (item :: items)).
Proof.
  unfold parse_content. cbn [result_content].
  rewrite fold_add_item_text. reflexivity.
Qed.

Lemma parse_content_textual (tool_result : CallToolResult) :
  textual_parts tool_result <> [] ->
  parse_content tool_result = String.concat "" (textual_parts tool_result).
Proof.
  destruct tool_result as [[[|item items]|]]; unfold textual_parts;
    cbn [result_content texts_of]; intros H; try congruence.
  apply parse_content_items.
Qed.

(** ** Histories *)

Local Open Scope list_scope.

Lemma answers_not_AI (tc : ToolCall) (m : Message) :
  answers tc m -> is_AI m = false.
Proof. intros [c ->]. reflexivity. Qed.

Lemma answers_all_not_AI (tcs : list ToolCall) (ms : list Message) :
  Forall2 answers tcs ms -> Forall (fun m => is_AI m = false) ms.
Proof.
  induction 1 as [|tc m tcs ms H _ IH]; constructor; [|exact IH].
  now apply answers_not_AI with tc.
Qed.


Lemma count_AI_app (h1 h2 : list Message) :
  count_AI (h1 ++ h2) = count_AI h1 + count_AI h2.
Proof. unfold count_AI. now rewrite filter_app, length_app. Qed.

Lemma count_AI_results (tcs : list ToolCall) (ms : list Message) :
  Forall2 answers tcs ms -> count_AI ms = 0.
Proof.
  intros H. apply answers_all_not_AI in H. unfold count_AI.
  induction H as [|m ms Hm _ IH]; cbn; [reflexivity|]. now rewrite Hm.
Qed.








Lemma executing_no_report (tcs : list ToolCall) :
  existsb is_report (executing tcs) = false.
Proof. induction tcs as [|tc rest IH]; [reflexivity | exact IH]. Qed.

Lemma placeholder_short :
  String.length NO_TEXT_PLACEHOLDER <= TRUNCATION_LIMIT.
Proof. apply Nat.leb_le. vm_compute. reflexivity. Qed.

(** ** The loop *)

Section AgentFacts.

Variable World : Type.
Variable ainvoke : World -> list Message -> Result AIMessage * World.
Variable call_tool : World -> string -> Args -> Result CallToolResult * World.

Local Abbreviation dispatch := (dispatch_tool_call call_tool).
Local Abbreviation results_of := (tool_results call_tool).

(** One tool call: whatever the invocation does, the dispatch returns and
    appends one message for the request. *)
Lemma dispatch_tool_call_eq (tc : ToolCall) (env : Env World) :
  dispatch tc env =
  let (outcome, w) := call_tool (world env) (tc_name tc) (tc_args tc) in
  (Returned tt,
   mkEnv w
     (messages env
      ++ [ToolMessage (content_of_outcome outcome) (tc_id tc) (tc_name tc)])
     (stdout env ++ [PExecuting (tc_name tc)])
     (invocations env)).
Proof.
  unfold dispatch_tool_call, bind, try_except, await_call_tool, print,
    messages_append, ret; cbn [world messages stdout invocations].
  destruct (call_tool (world env) (tc_name tc) (tc_args tc)) as [[r|e] w];
    reflexivity.
Qed.

Lemma for_each_dispatch_eq (tcs : list ToolCall) (env : Env World) :
  for_each tcs dispatch env =
  let (ms, w) := results_of (world env) tcs in
  (Returned tt,
   mkEnv w (messages env ++ ms) (stdout env ++ executing tcs)
     (invocations env)).
Proof.
  revert env. induction tcs as [|tc rest IH]; intros env.
  - destruct env; cbn. now rewrite !app_nil_r.
  - cbn [for_each tool_results]. unfold bind at 1.
    rewrite dispatch_tool_call_eq.
    destruct (call_tool (world env) (tc_name tc) (tc_args tc)) as [outcome w1].
    rewrite IH. cbn [world messages stdout invocations].
    destruct (results_of w1 rest) as [ms w2].
    unfold executing. cbn [map]. now rewrite <- !app_assoc.
Qed.

Lemma tool_results_answers (tcs : list ToolCall) (w : World) :
  Forall2 answers tcs (fst (results_of w tcs)).
Proof.
  revert w. induction tcs as [|tc rest IH]; intros w; cbn [tool_results].
  - constructor.
  - destruct (call_tool w (tc_name tc) (tc_args tc)) as [outcome w1].
    specialize (IH w1). destruct (results_of w1 rest) as [ms w2].
    cbn [fst] in *. constructor; [|exact IH]. now eexists.
Qed.


(** A reply without tool calls: the report is printed and the loop is
    left. *)
Lemma process_response_final (iteration : nat) (response : AIMessage)
    (env : Env World) :
  tool_calls response = [] ->
  process_response call_tool iteration response env =
  (Returned Break,
   mkEnv (world env) (messages env ++ [AI response])
     (stdout env
      ++ [PReportBanner; PReport (content response); PReportRule])
     (invocations env)).
Proof.
  intros H. unfold process_response. rewrite H.
  unfold bind, messages_append, print, ret;
    cbn [world messages stdout invocations].
  now rewrite <- !app_assoc.
Qed.

(** A reply with tool calls: they are all dispatched and the iteration
    ends without leaving the loop. *)
Lemma process_response_tools (iteration : nat) (response : AIMessage)
    (env : Env World) :
  tool_calls response <> [] ->
  process_response call_tool iteration response env =
  let (ms, w) := results_of (world env) (tool_calls response) in
  (Returned Fallthrough,
   mkEnv w (messages env ++ AI response :: ms)
     (stdout env
      ++ PStep iteration (List.length (tool_calls response))
         :: executing (tool_calls response))
     (invocations env)).
Proof.
  intros H. unfold process_response.
  destruct (tool_calls response) as [|tc rest] eqn:E; [congruence|].
  unfold bind at 1. unfold messages_append at 1.
  unfold bind at 1. unfold print at 1. unfold bind at 1.
  rewrite for_each_dispatch_eq. cbn [world messages stdout invocations].
  destruct (results_of (world env) (tc :: rest)) as [ms w].
  unfold ret. now rewrite <- !app_assoc.
Qed.

Lemma loop_body_eq (iteration : nat) (env : Env World) :
  loop_body ainvoke call_tool iteration env =
  match ainvoke (world env) (messages env) with
  | (Returned response, w) =>
      process_response call_tool iteration response (asked env w)
  | (Raised e, w) => (Raised e, asked env w)
  end.
Proof.
  unfold loop_body, bind, await_ainvoke, asked.
  destruct (ainvoke (world env) (messages env)) as [[response|e] w];
    reflexivity.
Qed.

Lemma loop_body_outcome (iteration : nat) (env : Env World) :
  body_outcome ainvoke call_tool iteration env
    (loop_body ainvoke call_tool iteration env).
Proof.
  rewrite loop_body_eq.
  destruct (ainvoke (world env) (messages env)) as [[response|e] w] eqn:E.
  - destruct (tool_calls response) as [|tc rest] eqn:T.
    + rewrite process_response_final by exact T.
      cbn [asked world messages stdout invocations].
      now apply body_final.
    + assert (N : tool_calls response <> []) by congruence.
      rewrite (process_response_tools _ _ _ N).
      cbn [asked world messages stdout invocations].
      destruct (results_of w (tool_calls response)) as [ms w'] eqn:R.
      now apply body_tools with (w := w).
  - now apply body_raised.
Qed.

(** Unfolding of the [while] loop. *)
Lemma while_loop_exit (fuel iteration : nat) (env : Env World) :
  max_iterations <= iteration ->
  while_loop ainvoke call_tool fuel iteration env
  = (Returned (Some (iteration, Fallthrough)), env).
Proof.
  intros H. destruct fuel; cbn [while_loop];
    destruct (Nat.ltb_spec iteration max_iterations); try lia; reflexivity.
Qed.

Lemma while_loop_step (fuel iteration : nat) (env : Env World) :
  iteration < max_iterations ->
  while_loop ainvoke call_tool (S fuel) iteration env =
  match loop_body ainvoke call_tool (S iteration) env with
  | (Returned Break, env') => (Returned (Some (S iteration, Break)), env')
  | (Returned Fallthrough, env') =>
      while_loop ainvoke call_tool fuel (S iteration) env'
  | (Raised e, env') => (Raised e, env')
  end.
Proof.
  intros H. cbn [while_loop].
  destruct (Nat.ltb_spec iteration max_iterations); [|lia].
  unfold bind.
  destruct (loop_body ainvoke call_tool (S iteration) env) as [[[|]|e] env'];
    reflexivity.
Qed.

Lemma after_loop_eq (iteration : nat) (env : Env World) :
  after_loop iteration env =
  (Returned tt,
   mkEnv (world env) (messages env)
     (stdout env
      ++ (if (max_iterations <=? iteration)%nat then [PMaxIterations]
          else []))
     (invocations env)).
Proof.
  unfold after_loop.
  destruct (max_iterations <=? iteration)%nat; [reflexivity|].
  destruct env; cbn. now rewrite app_nil_r.
Qed.

Lemma run_audit_eq (w : World) :
  run_audit ainvoke call_tool w =
  match while_loop ainvoke call_tool max_iterations 0 (loop_entry w) with
  | (Returned (Some (iteration, exit)), env) =>
      (Returned (Some (iteration, exit)), snd (after_loop iteration env))
  | other => other
  end.
Proof.
  unfold run_audit, run_audit_from, bind at 1 2 3.
  cbn [print initial_env world messages stdout invocations app].
  fold (loop_entry w).
  destruct (while_loop ainvoke call_tool max_iterations 0 (loop_entry w))
    as [[[[iteration exit]|]|e] env]; try reflexivity.
  unfold bind. rewrite after_loop_eq. reflexivity.
Qed.

(** *** The history consists of complete exchanges *)




(** *** Counting iterations *)

Lemma while_loop_counts (fuel iteration : nat) (env : Env World) :
  iteration <= max_iterations ->
  max_iterations - iteration <= fuel ->
  List.length (invocations env) = iteration ->
  count_AI (messages env) = iteration ->
  match while_loop ainvoke call_tool fuel iteration env with
  | (Returned (Some (iteration', exit)), env') =>
      iteration' <= max_iterations /\
      List.length (invocations env') = iteration' /\
      count_AI (messages env') = iteration' /\
      (exit = Fallthrough -> iteration' = max_iterations)
  | (Returned None, _) => False
  | (Raised _, env') =>
      List.length (invocations env') <= max_iterations /\
      S (count_AI (messages env')) = List.length (invocations env')
  end.
Proof.
  revert iteration env.
  induction fuel as [|fuel IH]; intros iteration env Hle Hfuel Hi Hc.
  - rewrite while_loop_exit by lia. repeat split; try assumption. lia.
  - destruct (Nat.lt_ge_cases iteration max_iterations) as [L|L].
    2:{ rewrite while_loop_exit by lia. repeat split; try assumption. lia. }
    rewrite while_loop_step by exact L.
    destruct (loop_body_outcome (S iteration) env) as
      [e w E | response w E T | response w w' ms E T R].
    + cbn [asked messages invocations]. rewrite length_app. cbn. lia.
    + cbn [messages invocations]. rewrite length_app, count_AI_app.
      cbn. repeat split; try lia. discriminate.
    + apply IH; cbn [messages invocations]; try lia.
      * rewrite length_app. cbn. lia.
      * rewrite count_AI_app.
        change (AI response :: ms) with ([AI response] ++ ms).
        rewrite count_AI_app.
        pose proof (tool_results_answers (tool_calls response) w) as A.
        rewrite R in A. cbn [fst] in A.
        rewrite (count_AI_results _ _ A). cbn. lia.
Qed.

End AgentFacts.

(** *** Each model invocation is followed by an exchange *)

Section Exchanged.

Variable World : Type.
Variable ainvoke : World -> list Message -> Result AIMessage * World.
Variable call_tool : World -> string -> Args -> Result CallToolResult * World.










End Exchanged.

(** * The claims of the specification *)

Section Claims.

Variable World : Type.
Variable ainvoke : World -> list Message -> Result AIMessage * World.
Variable call_tool : World -> string -> Args -> Result CallToolResult * World.


(** C2.  A run never has more than 10 replies of the model in its history:
    the loop body runs at most 10 times (once per model invocation), and
    each run of the body that gets a reply appends exactly that one reply.
    The loop always ends within the fuel it is given. *)
Theorem assistant_messages_bounded (w : World) :
  count_AI (messages (snd (run_audit ainvoke call_tool w))) <= 10 /\
  List.length (invocations (snd (run_audit ainvoke call_tool w))) <= 10 /\
  match run_audit ainvoke call_tool w with
  | (Returned (Some (iteration, _)), env) =>
      count_AI (messages env) = iteration /\
      List.length (invocations env) = iteration
  | (Returned None, _) => False
  | (Raised _, env) =>
      S (count_AI (messages env)) = List.length (invocations env)
  end.
Proof.
  rewrite run_audit_eq.
  pose proof (while_loop_counts World ainvoke call_tool max_iterations 0
                (loop_entry w)) as H.
  change max_iterations with 10 in *.
  specialize (H ltac:(lia) ltac:(lia) eq_refl eq_refl).
  destruct (while_loop ainvoke call_tool 10 0 (loop_entry w))
    as [[[[iteration exit]|]|e] env]; cbn [snd].
  - rewrite after_loop_eq. cbn [snd messages invocations]. lia.
  - contradiction.
  - lia.
Qed.

(** C9.  When the first reply of the model has no tool calls, the run leaves
    the loop by [break] in iteration 1, the history is exactly the system
    message, the human message and that reply, and what is printed as the
    report is the text of the reply, unchanged; the diagnostic of the
    iteration bound is not printed. *)
Theorem first_reply_without_tool_calls (w w1 : World) (response : AIMessage) :
  ainvoke w initial_messages = (Returned response, w1) ->
  tool_calls response = [] ->
  run_audit ainvoke call_tool w =
  (Returned (Some (1, Break)),
   mkEnv w1
     [SystemMessage GDPR_AUDITOR_PROMPT;
      HumanMessage ("Audit this URL: " ++ TARGET_URL)%string;
      AI response]
     [PStarting; PReportBanner; PReport (content response); PReportRule]
     [initial_messages]).
Proof.
  intros E T. rewrite run_audit_eq.
  change max_iterations with (S 9) at 1.
  rewrite while_loop_step by (unfold max_iterations; lia).
  rewrite loop_body_eq. cbn [loop_entry world messages]. rewrite E.
  rewrite process_response_final by exact T.
  rewrite after_loop_eq. reflexivity.
Qed.


(** C6, amended.  The message appended for a tool invocation that returned
    has a content of at most 20,000 characters plus the marker; for an
    invocation that raised, the content is ["Error executing tool: "]
    followed by the whole error message, 22 characters longer than the
    message, whatever its length. *)
Theorem tool_message_content_length (env : Env World) (tc : ToolCall) :
  match call_tool (world env) (tc_name tc) (tc_args tc) with
  | (Returned tool_result, w) =>
      exists c,
        dispatch_tool_call call_tool tc env =
        (Returned tt,
         mkEnv w (messages env ++ [ToolMessage c (tc_id tc) (tc_name tc)])
           (stdout env ++ [PExecuting (tc_name tc)]) (invocations env)) /\
        String.length c <= 20000 + String.length TRUNCATION_MARKER
  | (Raised e, w) =>
      dispatch_tool_call call_tool tc env =
      (Returned tt,
       mkEnv w
         (messages env
          ++ [ToolMessage ("Error executing tool: " ++ e)%string
                (tc_id tc) (tc_name tc)])
         (stdout env ++ [PExecuting (tc_name tc)]) (invocations env)) /\
      String.length ("Error executing tool: " ++ e)%string
      = 22 + String.length e
  end.
Proof.
  rewrite dispatch_tool_call_eq.
  destruct (call_tool (world env) (tc_name tc) (tc_args tc)) as [[r|e] w].
  - eexists. split; [reflexivity|]. apply length_truncate.
  - split; [reflexivity|]. now rewrite StrFacts.length_append.
Qed.

(** X13.  For a tool invocation that returned a result with no content
    part at all, the content of the appended message is the placeholder;
    for one that returned a result with at least one textual part, it is
    the truncation of the concatenation of the textual parts in order,
    which is that concatenation itself when it has at most 20,000
    characters. *)
Theorem content_of_returned_result (env : Env World) (tc : ToolCall)
    (tool_result : CallToolResult) (w : World) (c : string) :
  call_tool (world env) (tc_name tc) (tc_args tc) = (Returned tool_result, w) ->
  known_success_content tool_result = Some c ->
  dispatch_tool_call call_tool tc env =
  (Returned tt,
   mkEnv w (messages env ++ [ToolMessage c (tc_id tc) (tc_name tc)])
     (stdout env ++ [PExecuting (tc_name tc)]) (invocations env)) /\
  (textual_parts tool_result <> [] ->
   String.length (String.concat "" (textual_parts tool_result)) <= 20000 ->
   c = String.concat "" (textual_parts tool_result)).
Proof.
  intros E A. rewrite dispatch_tool_call_eq, E. cbn [content_of_outcome].
  assert (C : truncate (parse_content tool_result) = c
              /\ (textual_parts tool_result <> [] ->
                  c = truncate (String.concat "" (textual_parts tool_result)))).
  { destruct tool_result as [[[|item items]|]]; unfold known_success_content,
      textual_parts in *; cbn [result_content] in *.
    - injection A as <-. split; [|now intros []].
      apply truncate_short, placeholder_short.
    - rewrite parse_content_items.
      destruct (texts_of (item :: items)) as [|t ts]; [discriminate|].
      injection A as <-. now split.
    - injection A as <-. split; [|now intros []].
      apply truncate_short, placeholder_short. }
  destruct C as [C1 C2]. rewrite C1. split; [reflexivity|].
  intros N Len. rewrite (C2 N). now apply truncate_short.
Qed.

(** C8.  When the textual output of a tool invocation that returned is
    25,000 times the character [a], the content of the appended message is
    20,000 times [a] followed by the marker: whatever the state of the run
    and however the output is split into parts, so it is the same in every
    run. *)
Theorem long_output_truncated (env : Env World) (tc : ToolCall)
    (tool_result : CallToolResult) (w : World) :
  call_tool (world env) (tc_name tc) (tc_args tc) = (Returned tool_result, w) ->
  String.concat "" (textual_parts tool_result) = Str.repeat "a" 25000 ->
  dispatch_tool_call call_tool tc env =
  (Returned tt,
   mkEnv w
     (messages env
      ++ [ToolMessage (Str.repeat "a" 20000 ++ "... [Truncated]")%string
            (tc_id tc) (tc_name tc)])
     (stdout env ++ [PExecuting (tc_name tc)]) (invocations env)).
Proof.
  intros E T. rewrite dispatch_tool_call_eq, E. cbn [content_of_outcome].
  assert (N : textual_parts tool_result <> []).
  { intros Z. rewrite Z in T. apply (f_equal String.length) in T.
    rewrite StrFacts.length_repeat1 in T. cbn [String.concat String.length] in T.
    symmetry in T. apply Nat.eqb_eq in T. vm_compute in T. discriminate. }
  rewrite (parse_content_textual _ N), T.
  change (Str.repeat "a" 25000) with (Str.repeat (String "a" "") 25000).
  now rewrite truncate_25000.
Qed.

(** C10.  A reply with tool calls is treated the same whether or not it has
    text: the whole reply is appended to the history, every tool call is
    dispatched, nothing is printed as a report, and the iteration ends
    without leaving the loop, with control back at the loop test.  The state
    reached is the one reached for the same reply without its text, except
    that the history holds the reply as it was given. *)
Theorem text_beside_tool_calls_is_ignored (fuel iteration : nat)
    (env : Env World) (response : AIMessage) (w : World) :
  iteration < max_iterations ->
  ainvoke (world env) (messages env) = (Returned response, w) ->
  tool_calls response <> [] ->
  exists ms w',
    tool_results call_tool w (tool_calls response) = (ms, w') /\
    Forall2 answers (tool_calls response) ms /\
    let progress :=
      PStep (S iteration) (List.length (tool_calls response))
      :: executing (tool_calls response) in
    let reached (r : AIMessage) :=
      mkEnv w' (messages env ++ AI r :: ms) (stdout env ++ progress)
        (invocations env ++ [messages env]) in
    let bare := mkAIMessage "" (tool_calls response) in
    loop_body ainvoke call_tool (S iteration) env
      = (Returned Fallthrough, reached response) /\
    process_response call_tool (S iteration) bare (asked env w)
      = (Returned Fallthrough, reached bare) /\
    existsb is_report progress = false /\
    while_loop ainvoke call_tool (S fuel) iteration env
      = while_loop ainvoke call_tool fuel (S iteration) (reached response).
Proof.
  intros L E N.
  pose proof (tool_results_answers World call_tool (tool_calls response) w) as A.
  destruct (tool_results call_tool w (tool_calls response)) as [ms w'] eqn:R.
  exists ms, w'. cbn [fst] in A. split; [reflexivity|]. split; [exact A|].
  cbv zeta.
  assert (B : loop_body ainvoke call_tool (S iteration) env =
    (Returned Fallthrough,
     mkEnv w' (messages env ++ AI response :: ms)
       (stdout env
        ++ PStep (S iteration) (List.length (tool_calls response))
           :: executing (tool_calls response))
       (invocations env ++ [messages env]))).
  { rewrite loop_body_eq, E, (process_response_tools _ _ _ _ _ N).
    cbn [asked world messages stdout invocations]. now rewrite R. }
  repeat split.
  - exact B.
  - rewrite process_response_tools by exact N.
    cbn [asked world messages stdout invocations tool_calls]. now rewrite R.
  - cbn [existsb is_report orb]. apply executing_no_report.
  - rewrite while_loop_step by exact L. now rewrite B.
Qed.

End Claims.

(** C5.  Truncating twice is the same as truncating once, and a truncated
    string is never longer than 20,000 characters plus the marker. *)
Theorem truncation_idempotent (s : string) :
  truncate (truncate s) = truncate s /\
  String.length (truncate s) <= 20000 + String.length TRUNCATION_MARKER.
Proof.
  split.
  - apply truncate_at_idempotent.
  - apply length_truncate.
Qed.

(** ** Scripted runs *)

Module Runs.
Import Scenario.

(** C3.  The run in which the model asks for a tool in iterations 1 to 9
    and gives its report in iteration 10 leaves the loop by [break] with the
    report printed, and then prints the diagnostic of the iteration bound
    as well: the test after the loop only looks at the counter. *)
Theorem report_in_last_iteration_prints_diagnostic :
  fst (run_audit (scripted_ainvoke report_at_tenth) tools 0)
  = Returned (Some (10, Break)) /\
  count_AI (messages (snd (run_audit (scripted_ainvoke report_at_tenth)
                             tools 0))) = 10 /\
  skipn 19 (stdout (snd (run_audit (scripted_ainvoke report_at_tenth)
                           tools 0)))
  = [PReportBanner; PReport "FINAL REPORT"; PReportRule; PMaxIterations].
Proof. vm_compute. repeat split. Qed.

(** The model asks for a tool in all 10 iterations: the loop is left by its
    condition, no report is printed and the diagnostic is. *)
Example never_done_is_exhausted :
  fst (run_audit (scripted_ainvoke never_done) tools 0)
  = Returned (Some (10, Fallthrough)) /\
  existsb is_report (stdout (snd (run_audit (scripted_ainvoke never_done)
                                    tools 0))) = false /\
  skipn 21 (stdout (snd (run_audit (scripted_ainvoke never_done) tools 0)))
  = [PMaxIterations].
Proof. vm_compute. repeat split. Qed.

(** The model fails in the first iteration: the exception leaves
    [run_audit] and nothing is reported. *)
Example model_failure_is_fatal :
  run_audit (scripted_ainvoke []) tools 0
  = (Raised "model unavailable",
     mkEnv 1 initial_messages [PStarting] [initial_messages]).
Proof. reflexivity. Qed.

Example parse_mixed_parts :
  parse_content
    (mkCallToolResult
       (Some [TextContent "He"; ImageContent "iVBORw0KGgo=" "image/png";
              TextContent "llo"]))
  = "Hello".
Proof. reflexivity. Qed.

(** C6, as stated, fails: the message appended for an invocation that
    raised with a message of 30,000 characters has a content of 30,022
    characters. *)
Lemma long_error_message_exceeds_bound :
  messages (snd (dispatch_tool_call tools (call "call_1" "evaluate_script")
                   env0))
  = initial_messages
    ++ [ToolMessage ("Error executing tool: " ++ Str.repeat "e" 30000)%string
          "call_1" "evaluate_script"] /\
  ~ String.length ("Error executing tool: " ++ Str.repeat "e" 30000)%string
    <= 20000 + String.length TRUNCATION_MARKER.
Proof.
  split.
  - rewrite dispatch_tool_call_eq. reflexivity.
  - intros H. apply Nat.leb_le in H. vm_compute in H. discriminate.
Qed.

(** C7.  For a returned result whose only part is an image, which has no
    textual part, the content of the appended message is the empty string
    and not the placeholder: the placeholder is chosen by the content list
    being empty, not by the text being absent. *)
Theorem image_only_result_gets_empty_content :
  messages (snd (dispatch_tool_call tools (call "call_2" "take_screenshot")
                   env0))
  = initial_messages ++ [ToolMessage "" "call_2" "take_screenshot"] /\
  textual_parts
    (mkCallToolResult (Some [ImageContent "iVBORw0KGgo=" "image/png"])) = [] /\
  spec_success_content
    (mkCallToolResult (Some [ImageContent "iVBORw0KGgo=" "image/png"]))
  = "Tool executed (no text output returned)."%string.
Proof.
  split; [|split; reflexivity].
  rewrite dispatch_tool_call_eq. reflexivity.
Qed.



(** The tool [fetch_text] returns the text [Hello]: the content of the
    appended message is [Hello]. *)
Lemma content_of_returned_result_witness :
  dispatch_tool_call tools (call "call_1" "fetch_text") env0
  = (Returned tt,
     mkEnv 0 (initial_messages ++ [ToolMessage "Hello" "call_1" "fetch_text"])
       [PStarting; PExecuting "fetch_text"] []).
Proof.
  apply (content_of_returned_result nat tools env0
           (call "call_1" "fetch_text")
           (mkCallToolResult (Some [TextContent "Hello"])) 0 "Hello");
    reflexivity.
Defined.

(** The tool [take_snapshot] returns 25,000 times [a] in one part. *)
Lemma long_output_truncated_witness :
  dispatch_tool_call tools (call "call_1" "take_snapshot") env0
  = (Returned tt,
     mkEnv 0
       (initial_messages
        ++ [ToolMessage (Str.repeat "a" 20000 ++ "... [Truncated]")%string
              "call_1" "take_snapshot"])
       [PStarting; PExecuting "take_snapshot"] []).
Proof.
  apply (long_output_truncated nat tools env0 (call "call_1" "take_snapshot")
           (mkCallToolResult (Some [TextContent (Str.repeat "a" 25000)])) 0);
    reflexivity.
Defined.

(** The model answers at once. *)
Lemma first_reply_without_tool_calls_witness :
  run_audit (scripted_ainvoke [says "No cookie banner was found."]) tools 0
  = (Returned (Some (1, Break)),
     mkEnv 1
       (initial_messages ++ [AI (says "No cookie banner was found.")])
       [PStarting; PReportBanner; PReport "No cookie banner was found.";
        PReportRule]
       [initial_messages]).
Proof.
  apply (first_reply_without_tool_calls nat
           (scripted_ainvoke [says "No cookie banner was found."]) tools
           0 1 (says "No cookie banner was found.")); reflexivity.
Defined.

(** A first reply with text and two tool calls: both are dispatched, the
    text is not printed and the loop goes on. *)
Lemma text_beside_tool_calls_is_ignored_witness :
  loop_body (scripted_ainvoke [text_and_calls]) tools 1 env0
  = (Returned Fallthrough,
     mkEnv 1
       (initial_messages
        ++ [AI text_and_calls;
            ToolMessage "Hello" "call_1" "fetch_text";
            ToolMessage "Error executing tool: element not found"
              "call_2" "click"])
       [PStarting; PStep 1 2; PExecuting "fetch_text"; PExecuting "click"]
       [initial_messages]).
Proof.
  destruct (text_beside_tool_calls_is_ignored nat
              (scripted_ainvoke [text_and_calls]) tools 9 0 env0
              text_and_calls 1)
    as (ms & w' & R & _ & Hb & _).
  - unfold max_iterations. lia.
  - reflexivity.
  - discriminate.
  - rewrite Hb. vm_compute in R. injection R as <- <-. reflexivity.
Defined.

End Runs.


(** * Further properties of the loop *)

(** ** Counting in histories and in what is printed *)

Lemma results_are_ToolMessages (tcs : list ToolCall) (ms : list Message) :
  Forall2 answers tcs ms -> Forall (fun m => is_ToolMessage m = true) ms.
Proof.
  induction 1 as [|tc m tcs ms [c ->] _ IH]; constructor; [reflexivity|exact IH].
Qed.

Lemma count_ToolMessage_app (h1 h2 : list Message) :
  count_ToolMessage (h1 ++ h2) = count_ToolMessage h1 + count_ToolMessage h2.
Proof. unfold count_ToolMessage. now rewrite filter_app, length_app. Qed.

Lemma count_ToolMessage_results (tcs : list ToolCall) (ms : list Message) :
  Forall2 answers tcs ms -> count_ToolMessage ms = List.length tcs.
Proof.
  unfold count_ToolMessage.
  induction 1 as [|tc m tcs ms [c ->] _ IH]; cbn; [reflexivity|].
  now rewrite IH.
Qed.

Lemma requested_app (h1 h2 : list Message) :
  requested (h1 ++ h2) = requested h1 + requested h2.
Proof.
  induction h1 as [|m h1 IH]; cbn; [reflexivity|].
  destruct m; rewrite IH; lia.
Qed.

Lemma requested_results (tcs : list ToolCall) (ms : list Message) :
  Forall2 answers tcs ms -> requested ms = 0.
Proof. induction 1 as [|tc m tcs ms [c ->] _ IH]; cbn; [reflexivity|exact IH]. Qed.

Lemma requests_tools_results (tcs : list ToolCall) (ms : list Message) :
  Forall2 answers tcs ms -> forallb requests_tools ms = true.
Proof. induction 1 as [|tc m tcs ms [c ->] _ IH]; cbn; [reflexivity|exact IH]. Qed.

Lemma steps_from_results (i : nat) (tcs : list ToolCall) (ms : list Message) :
  Forall2 answers tcs ms -> steps_from i ms = [].
Proof. induction 1 as [|tc m tcs ms [c ->] _ IH]; cbn; [reflexivity|exact IH]. Qed.

Lemma steps_from_app (i : nat) (h1 h2 : list Message) :
  steps_from i (h1 ++ h2)
  = steps_from i h1 ++ steps_from (i + count_AI h1) h2.
Proof.
  revert i. induction h1 as [|m h1 IH]; intros i.
  - cbn. now rewrite Nat.add_0_r.
  - destruct m as [c|c|r|c id name]; cbn [app steps_from];
      try (rewrite IH; reflexivity).
    unfold count_AI. cbn [filter is_AI List.length]. fold (count_AI h1).
    rewrite <- Nat.add_succ_comm.
    destruct (tool_calls r); rewrite IH; reflexivity.
Qed.

Lemma executing_only_executing (tcs : list ToolCall) :
  filter is_executing (executing tcs) = executing tcs /\
  filter is_step (executing tcs) = [] /\
  existsb is_diagnostic (executing tcs) = false /\
  List.length (executing tcs) = List.length tcs.
Proof.
  unfold executing.
  induction tcs as [|tc rest (E & S & D & L)]; cbn; [now repeat split|].
  rewrite E, S, L. now repeat split.
Qed.

Lemma is_prefix_of_refl (h : list Message) : is_prefix_of h h.
Proof. exists []. now rewrite app_nil_r. Qed.

Lemma is_prefix_of_app (h h' rest : list Message) :
  is_prefix_of h h' -> is_prefix_of h (h' ++ rest).
Proof. intros [t ->]. exists (t ++ rest). now rewrite app_assoc. Qed.

(** ** What holds at the loop test *)

Lemma running_entry {World : Type} (w : World) : running 0 (loop_entry w).
Proof.
  constructor; cbn [loop_entry messages stdout invocations];
    try reflexivity.
  - constructor.
  - apply is_prefix_of_refl.
Qed.

Lemma running_step {World : Type} (iteration : nat) (env : Env World)
    (response : AIMessage) (w : World) (ms : list Message) :
  running iteration env ->
  tool_calls response <> [] ->
  Forall2 answers (tool_calls response) ms ->
  running (S iteration)
    (mkEnv w (messages env ++ AI response :: ms)
       (stdout env
        ++ PStep (S iteration) (List.length (tool_calls response))
           :: executing (tool_calls response))
       (invocations env ++ [messages env])).
Proof.
  intros R N A.
  destruct (executing_only_executing (tool_calls response))
    as (Ee & Es & Ed & El).
  constructor; cbn [messages stdout invocations].
  - rewrite length_app, (running_invocations _ _ R). cbn. lia.
  - rewrite count_AI_app. change (AI response :: ms) with ([AI response] ++ ms).
    rewrite count_AI_app, (count_AI_results _ _ A), (running_replies _ _ R).
    cbn. lia.
  - rewrite forallb_app, (running_requests _ _ R).
    cbn [forallb requests_tools andb].
    rewrite (requests_tools_results _ _ A).
    now destruct (tool_calls response).
  - rewrite existsb_app, (running_no_report _ _ R).
    cbn [existsb is_report orb]. apply executing_no_report.
  - rewrite existsb_app, (running_no_diagnostic _ _ R).
    cbn [existsb is_diagnostic orb]. exact Ed.
  - apply Forall_app. split.
    + eapply Forall_impl; [|exact (running_prefixes _ _ R)].
      intros h H. now apply is_prefix_of_app.
    + constructor; [|constructor]. now exists (AI response :: ms).
  - pose proof (running_first _ _ R) as F.
    destruct (invocations env) as [|h hs]; cbn; exact F.
  - apply is_prefix_of_app, (running_initial _ _ R).
  - rewrite count_ToolMessage_app, filter_app, length_app.
    rewrite (running_executed _ _ R).
    change (AI response :: ms) with ([AI response] ++ ms).
    rewrite count_ToolMessage_app, (count_ToolMessage_results _ _ A).
    cbn [filter is_executing]. rewrite Ee, El. reflexivity.
  - rewrite requested_app, count_ToolMessage_app.
    rewrite (running_requested _ _ R).
    change (AI response :: ms) with ([AI response] ++ ms).
    rewrite count_ToolMessage_app, (count_ToolMessage_results _ _ A).
    cbn [app requested]. rewrite (requested_results _ _ A).
    change (count_ToolMessage [AI response]) with 0. lia.
  - rewrite filter_app, steps_from_app, (running_steps _ _ R).
    rewrite (running_replies _ _ R). cbn [filter is_step steps_from Nat.add].
    rewrite Es, (steps_from_results _ _ _ A).
    now destruct (tool_calls response).
Qed.

Section RunFacts.

Variable World : Type.
Variable ainvoke : World -> list Message -> Result AIMessage * World.
Variable call_tool : World -> string -> Args -> Result CallToolResult * World.

(** How the loop can be left, in terms of the state at the last loop test
    and of what the model did in the last iteration. *)
Lemma while_loop_shape (fuel iteration : nat) (env : Env World) :
  max_iterations - iteration <= fuel ->
  iteration <= max_iterations ->
  running iteration env ->
  match while_loop ainvoke call_tool fuel iteration env with
  | (Returned (Some (iteration', Break)), env') =>
      exists i env0 response w,
        iteration' = S i /\ i < max_iterations /\ running i env0 /\
        ainvoke (world env0) (messages env0) = (Returned response, w) /\
        tool_calls response = [] /\
        env' = mkEnv w (messages env0 ++ [AI response])
                 (stdout env0
                  ++ [PReportBanner; PReport (content response); PReportRule])
                 (invocations env0 ++ [messages env0])
  | (Returned (Some (iteration', Fallthrough)), env') =>
      iteration' = max_iterations /\ running max_iterations env'
  | (Returned None, _) => False
  | (Raised e, env') =>
      exists i env0 w,
        i < max_iterations /\ running i env0 /\
        ainvoke (world env0) (messages env0) = (Raised e, w) /\
        env' = asked env0 w
  end.
Proof.
  revert iteration env.
  induction fuel as [|fuel IH]; intros iteration env Hf Hle R.
  - rewrite while_loop_exit by lia.
    assert (iteration = max_iterations) as -> by lia. now split.
  - destruct (Nat.lt_ge_cases iteration max_iterations) as [L|L].
    2:{ rewrite while_loop_exit by lia.
        assert (iteration = max_iterations) as -> by lia. now split. }
    rewrite while_loop_step by exact L.
    destruct (loop_body_outcome World ainvoke call_tool (S iteration) env) as
      [e w E | response w E T | response w w' ms E T Rs].
    + now exists iteration, env, w.
    + now exists iteration, env, response, w.
    + apply IH; try lia.
      apply running_step; try assumption.
      pose proof (tool_results_answers World call_tool (tool_calls response) w)
        as A.
      rewrite Rs in A. exact A.
Qed.

(** The same for a whole run, with the test after the loop. *)
Lemma run_audit_shape (w0 : World) :
  match run_audit ainvoke call_tool w0 with
  | (Returned (Some (iteration, Break)), env) =>
      exists i env0 response w,
        iteration = S i /\ i < max_iterations /\ running i env0 /\
        ainvoke (world env0) (messages env0) = (Returned response, w) /\
        tool_calls response = [] /\
        env = mkEnv w (messages env0 ++ [AI response])
                (stdout env0
                 ++ [PReportBanner; PReport (content response); PReportRule]
                 ++ (if (max_iterations <=? iteration)%nat
                     then [PMaxIterations] else []))
                (invocations env0 ++ [messages env0])
  | (Returned (Some (iteration, Fallthrough)), env) =>
      exists env0,
        iteration = max_iterations /\ running max_iterations env0 /\
        env = mkEnv (world env0) (messages env0)
                (stdout env0 ++ [PMaxIterations]) (invocations env0)
  | (Returned None, _) => False
  | (Raised e, env) =>
      exists i env0 w,
        i < max_iterations /\ running i env0 /\
        ainvoke (world env0) (messages env0) = (Raised e, w) /\
        env = asked env0 w
  end.
Proof.
  rewrite run_audit_eq.
  pose proof (while_loop_shape max_iterations 0 (loop_entry w0)
                ltac:(lia) ltac:(lia) (running_entry w0)) as H.
  destruct (while_loop ainvoke call_tool max_iterations 0 (loop_entry w0))
    as [[[[iteration [|]]|]|e] env]; try exact H.
  - destruct H as (i & env0 & response & w & -> & L & R & E & T & ->).
    exists i, env0, response, w. rewrite after_loop_eq.
    cbn [snd world messages stdout invocations].
    rewrite <- app_assoc.
    repeat (split; [first [assumption | reflexivity]|]). reflexivity.
  - destruct H as [-> R]. exists env. rewrite after_loop_eq.
    cbn [snd]. repeat (split; [first [assumption | reflexivity]|]).
    reflexivity.
Qed.

(** What holds of the state every run ends in, however it ends. *)
Lemma run_audit_final (w0 : World) :
  Forall (fun h => is_prefix_of h (messages (snd (run_audit ainvoke call_tool w0))))
    (invocations (snd (run_audit ainvoke call_tool w0))) /\
  hd_error (invocations (snd (run_audit ainvoke call_tool w0)))
  = Some initial_messages /\
  is_prefix_of initial_messages
    (messages (snd (run_audit ainvoke call_tool w0))) /\
  count_ToolMessage (messages (snd (run_audit ainvoke call_tool w0)))
  = List.length (filter is_executing
                   (stdout (snd (run_audit ainvoke call_tool w0)))) /\
  requested (messages (snd (run_audit ainvoke call_tool w0)))
  = count_ToolMessage (messages (snd (run_audit ainvoke call_tool w0))) /\
  filter is_step (stdout (snd (run_audit ainvoke call_tool w0)))
  = steps_from 1 (messages (snd (run_audit ainvoke call_tool w0))).
Proof.
  pose proof (run_audit_shape w0) as H.
  assert (F : forall (env0 : Env World) i, running i env0 ->
            hd_error (invocations env0 ++ [messages env0])
            = Some initial_messages).
  { intros env0 i R. pose proof (running_first _ _ R) as F.
    destruct (invocations env0); cbn; now rewrite F. }
  destruct (run_audit ainvoke call_tool w0) as [[[[iteration [|]]|]|e] env];
    cbn [snd]; try contradiction.
  - destruct H as (i & env0 & response & w & -> & L & R & E & T & ->).
    cbn [messages stdout invocations]. repeat apply conj.
    + apply Forall_app. split.
      * eapply Forall_impl; [|exact (running_prefixes _ _ R)].
        intros h H. now apply is_prefix_of_app.
      * constructor; [|constructor]. now exists [AI response].
    + now apply F with i.
    + apply is_prefix_of_app, (running_initial _ _ R).
    + rewrite count_ToolMessage_app, !filter_app, !length_app.
      rewrite (running_executed _ _ R). cbn [filter is_executing].
      now destruct (max_iterations <=? S i)%nat.
    + rewrite requested_app, count_ToolMessage_app, (running_requested _ _ R).
      cbn [requested]. now rewrite T.
    + rewrite !filter_app, steps_from_app, (running_steps _ _ R).
      cbn [filter is_step steps_from]. rewrite T.
      now destruct (max_iterations <=? S i)%nat.
  - destruct H as (env0 & -> & R & ->). cbn [messages stdout invocations].
    repeat apply conj.
    + exact (running_prefixes _ _ R).
    + pose proof (running_first _ _ R) as F1.
      pose proof (running_invocations _ _ R) as F2.
      destruct (invocations env0); [discriminate | cbn; now rewrite F1].
    + exact (running_initial _ _ R).
    + rewrite filter_app, length_app. cbn. rewrite Nat.add_0_r.
      exact (running_executed _ _ R).
    + exact (running_requested _ _ R).
    + rewrite filter_app. cbn. rewrite app_nil_r. exact (running_steps _ _ R).
  - destruct H as (i & env0 & w & L & R & E & ->).
    cbn [asked messages stdout invocations]. repeat apply conj.
    + apply Forall_app. split; [exact (running_prefixes _ _ R)|].
      constructor; [|constructor]. apply is_prefix_of_refl.
    + now apply F with i.
    + exact (running_initial _ _ R).
    + exact (running_executed _ _ R).
    + exact (running_requested _ _ R).
    + exact (running_steps _ _ R).
Qed.

End RunFacts.

(** * Further properties of a run *)

Section RunProperties.

Variable World : Type.
Variable ainvoke : World -> list Message -> Result AIMessage * World.
Variable call_tool : World -> string -> Args -> Result CallToolResult * World.

(** X1.  When [run_audit] raises, the exception is the one the model
    invocation raised on the history the run ends with, which is the last
    history the model was invoked on; no report and no diagnostic is
    printed, and no reply in the history is without tool calls. *)
Theorem model_failure_ends_run (w0 : World) (e : string) (env : Env World) :
  run_audit ainvoke call_tool w0 = (Raised e, env) ->
  (exists w, ainvoke w (messages env) = (Raised e, world env)) /\
  last (invocations env) [] = messages env /\
  existsb is_report (stdout env) = false /\
  existsb is_diagnostic (stdout env) = false /\
  forallb requests_tools (messages env) = true.
Proof.
  intros H. pose proof (run_audit_shape World ainvoke call_tool w0) as S.
  rewrite H in S. destruct S as (i & env0 & w & L & R & E & ->).
  cbn [asked world messages stdout invocations]. repeat apply conj.
  - now exists (world env0).
  - apply last_last.
  - exact (running_no_report _ _ R).
  - exact (running_no_diagnostic _ _ R).
  - exact (running_requests _ _ R).
Qed.

(** X2.  When the loop is left by its condition, it is after exactly 10
    iterations in each of which the model asked for tools: the history has
    10 replies, none without tool calls, no report is printed, and the
    diagnostic is the last line printed and is printed once. *)
Theorem exhausted_run (w0 : World) (iteration : nat) (env : Env World) :
  run_audit ainvoke call_tool w0
  = (Returned (Some (iteration, Fallthrough)), env) ->
  iteration = 10 /\
  count_AI (messages env) = 10 /\
  forallb requests_tools (messages env) = true /\
  existsb is_report (stdout env) = false /\
  exists out,
    stdout env = out ++ [PMaxIterations] /\
    existsb is_diagnostic out = false.
Proof.
  intros H. pose proof (run_audit_shape World ainvoke call_tool w0) as S.
  rewrite H in S. destruct S as (env0 & -> & R & ->).
  cbn [messages stdout]. repeat apply conj.
  - reflexivity.
  - exact (running_replies _ _ R).
  - exact (running_requests _ _ R).
  - rewrite existsb_app, (running_no_report _ _ R). reflexivity.
  - exists (stdout env0). split; [reflexivity|].
    exact (running_no_diagnostic _ _ R).
Qed.

(** X3.  When the loop is left by [break] in iteration [n], the history
    ends with a reply without tool calls, which is its [n]-th reply and the
    only one without tool calls; the report block printed holds the text of
    that reply and is the only one printed; no diagnostic is printed before
    it, and nothing is printed after it when [n < 10]. *)
Theorem reported_run (w0 : World) (iteration : nat) (env : Env World) :
  run_audit ainvoke call_tool w0 = (Returned (Some (iteration, Break)), env) ->
  exists h response out tail,
    messages env = h ++ [AI response] /\
    tool_calls response = [] /\
    forallb requests_tools h = true /\
    iteration = S (count_AI h) /\
    iteration <= 10 /\
    stdout env
    = out ++ [PReportBanner; PReport (content response); PReportRule] ++ tail /\
    existsb is_report out = false /\
    existsb is_diagnostic out = false /\
    existsb is_report tail = false /\
    (iteration < 10 -> tail = []).
Proof.
  intros H. pose proof (run_audit_shape World ainvoke call_tool w0) as S.
  rewrite H in S.
  destruct S as (i & env0 & response & w & -> & L & R & E & T & ->).
  exists (messages env0), response, (stdout env0),
    (if (max_iterations <=? S i)%nat then [PMaxIterations] else []).
  cbn [messages stdout]. unfold max_iterations in *. repeat apply conj.
  - reflexivity.
  - exact T.
  - exact (running_requests _ _ R).
  - now rewrite (running_replies _ _ R).
  - lia.
  - reflexivity.
  - exact (running_no_report _ _ R).
  - exact (running_no_diagnostic _ _ R).
  - now destruct (10 <=? S i)%nat.
  - intros Lt. destruct (Nat.leb_spec 10 (S i)); [lia | reflexivity].
Qed.

(** X4.  The diagnostic of the iteration bound is only printed by a run
    that returns after 10 model invocations: a run that raises, or that
    ends in fewer than 10 iterations, never prints it. *)
Theorem diagnostic_needs_all_iterations (w0 : World) :
  existsb is_diagnostic (stdout (snd (run_audit ainvoke call_tool w0))) = true ->
  List.length (invocations (snd (run_audit ainvoke call_tool w0))) = 10 /\
  exists exit,
    fst (run_audit ainvoke call_tool w0) = Returned (Some (10, exit)).
Proof.
  pose proof (run_audit_shape World ainvoke call_tool w0) as S.
  destruct (run_audit ainvoke call_tool w0) as [[[[iteration [|]]|]|e] env];
    cbn [fst snd]; try contradiction.
  - destruct S as (i & env0 & response & w & -> & L & R & E & T & ->).
    cbn [stdout invocations]. unfold max_iterations in *.
    rewrite !existsb_app, (running_no_diagnostic _ _ R).
    rewrite length_app, (running_invocations _ _ R).
    destruct (Nat.leb_spec 10 (S i)) as [G|G]; cbn; [|discriminate].
    intros _. assert (i = 9) as -> by lia. split; [reflexivity|].
    now exists Break.
  - destruct S as (env0 & -> & R & ->). cbn [invocations]. intros _.
    split; [exact (running_invocations _ _ R)|]. now exists Fallthrough.
  - destruct S as (i & env0 & w & L & R & E & ->). cbn [asked stdout].
    rewrite (running_no_diagnostic _ _ R). discriminate.
Qed.

(** X5.  The history only grows: every history the model was invoked on
    is a prefix of the history the run ends with, the first invocation is on
    the two initial messages alone, and these stay the first two messages
    of the history. *)
Theorem history_is_append_only (w0 : World) :
  Forall (fun h => is_prefix_of h
                     (messages (snd (run_audit ainvoke call_tool w0))))
    (invocations (snd (run_audit ainvoke call_tool w0))) /\
  hd_error (invocations (snd (run_audit ainvoke call_tool w0)))
  = Some initial_messages /\
  is_prefix_of initial_messages
    (messages (snd (run_audit ainvoke call_tool w0))).
Proof.
  destruct (run_audit_final World ainvoke call_tool w0) as (P & F & I & _).
  now repeat split.
Qed.

(** X6.  In the state a run ends in, the number of tool results in the
    history, the number of tool calls requested by the replies in the
    history, and the number of [Executing] lines printed are the same. *)
Theorem tool_calls_are_all_executed (w0 : World) :
  count_ToolMessage (messages (snd (run_audit ainvoke call_tool w0)))
  = requested (messages (snd (run_audit ainvoke call_tool w0))) /\
  count_ToolMessage (messages (snd (run_audit ainvoke call_tool w0)))
  = List.length (filter is_executing
                   (stdout (snd (run_audit ainvoke call_tool w0)))).
Proof.
  destruct (run_audit_final World ainvoke call_tool w0)
    as (_ & _ & _ & E & Q & _).
  now split.
Qed.

(** X7.  The [Step] lines printed by a run are, in order, one for each
    reply with tool calls in the history, numbered by the position of the
    reply among the replies (from 1) and giving its number of tool calls. *)
Theorem step_lines_follow_replies (w0 : World) :
  filter is_step (stdout (snd (run_audit ainvoke call_tool w0)))
  = steps_from 1 (messages (snd (run_audit ainvoke call_tool w0))).
Proof.
  now destruct (run_audit_final World ainvoke call_tool w0)
    as (_ & _ & _ & _ & _ & S).
Qed.

End RunProperties.

(** * Further properties of the truncation and of the dispatch *)

Lemma slice_to_append (n : nat) (s t : string) :
  n <= String.length s -> Str.slice_to n (s ++ t)%string = Str.slice_to n s.
Proof.
  unfold Str.slice_to. revert s.
  induction n as [|n IH]; intros [|c s] H; cbn in *.
  - now destruct t.
  - reflexivity.
  - lia.
  - f_equal. apply IH. lia.
Qed.

Section TruncationBounds.

Variable limit : nat.

Local Abbreviation trunc := (truncate_at limit).

Lemma length_truncate_at_exact (s : string) :
  String.length (trunc s)
  = if (limit <? String.length s)%nat
    then limit + String.length TRUNCATION_MARKER
    else String.length s.
Proof.
  unfold truncate_at.
  destruct (Nat.ltb_spec limit (String.length s)) as [H|H]; [|reflexivity].
  rewrite StrFacts.length_append, StrFacts.length_slice_to. lia.
Qed.

Lemma truncate_at_lengthens (s : string) :
  String.length s < String.length (trunc s) <->
  limit < String.length s < limit + String.length TRUNCATION_MARKER.
Proof.
  rewrite length_truncate_at_exact.
  destruct (Nat.ltb_spec limit (String.length s)); lia.
Qed.

Lemma truncate_at_keeps_prefix (s : string) :
  Str.slice_to limit (trunc s) = Str.slice_to limit s.
Proof.
  unfold truncate_at.
  destruct (Nat.ltb_spec limit (String.length s)) as [H|H]; [|reflexivity].
  apply StrFacts.slice_to_slice_append. lia.
Qed.

Lemma truncate_at_ignores_tail (s t : string) :
  limit < String.length s -> trunc (s ++ t)%string = trunc s.
Proof.
  intros H. rewrite !truncate_at_long.
  - rewrite slice_to_append by lia. reflexivity.
  - exact H.
  - rewrite StrFacts.length_append. lia.
Qed.

End TruncationBounds.

(** X8.  A truncated string has the length of the original when that is at
    most 20,000, and 20,000 plus the length of the marker otherwise; so the
    truncation makes a string longer exactly when it has more than 20,000
    characters and fewer than 20,000 plus the length of the marker. *)
Theorem truncation_length (s : string) :
  String.length (truncate s)
  = (if (20000 <? String.length s)%nat
     then 20000 + String.length TRUNCATION_MARKER
     else String.length s) /\
  (String.length s < String.length (truncate s) <->
   20000 < String.length s < 20000 + String.length TRUNCATION_MARKER).
Proof.
  split.
  - apply length_truncate_at_exact.
  - apply truncate_at_lengthens.
Qed.

(** X9.  The truncation keeps the first 20,000 characters of every
    string. *)
Theorem truncation_keeps_prefix (s : string) :
  Str.slice_to 20000 (truncate s) = Str.slice_to 20000 s.
Proof. apply truncate_at_keeps_prefix. Qed.

(** X10.  Once a tool output has more than 20,000 characters, whatever
    comes after it does not change the truncated content. *)
Theorem truncation_ignores_tail (s t : string) :
  20000 < String.length s -> truncate (s ++ t)%string = truncate s.
Proof. apply truncate_at_ignores_tail. Qed.

Section DispatchProperties.

Variable World : Type.
Variable call_tool : World -> string -> Args -> Result CallToolResult * World.

(** X11.  When a tool returns at least one content part and the parts carry
    no text (no part is textual, or all texts are empty), the content of
    the appended message is the empty string: the placeholder is only used
    for a result without content parts. *)
Theorem content_without_text_is_empty (env : Env World) (tc : ToolCall)
    (tool_result : CallToolResult) (items : list ContentItem) (w : World) :
  call_tool (world env) (tc_name tc) (tc_args tc) = (Returned tool_result, w) ->
  result_content tool_result = Some items ->
  items <> [] ->
  String.concat "" (texts_of items) = ""%string ->
  dispatch_tool_call call_tool tc env =
  (Returned tt,
   mkEnv w (messages env ++ [ToolMessage "" (tc_id tc) (tc_name tc)])
     (stdout env ++ [PExecuting (tc_name tc)]) (invocations env)).
Proof.
  intros E C N T. rewrite dispatch_tool_call_eq, E. cbn [content_of_outcome].
  destruct tool_result as [c]. cbn [result_content] in C. subst c.
  destruct items as [|item items]; [congruence|].
  rewrite parse_content_items, T. reflexivity.
Qed.

End DispatchProperties.

(** X12.  A failure is passed to the model as text only: a tool that
    returns the text ["Error executing tool: "] followed by [e] leaves the
    run in the same state as a tool that raises [e], as long as the text has
    at most 20,000 characters. *)
Theorem error_is_only_text {World : Type}
    (failing returning : World -> string -> Args
                         -> Result CallToolResult * World)
    (env : Env World) (tc : ToolCall) (e : string) (w : World) :
  failing (world env) (tc_name tc) (tc_args tc) = (Raised e, w) ->
  returning (world env) (tc_name tc) (tc_args tc)
  = (Returned
       (mkCallToolResult
          (Some [TextContent ("Error executing tool: " ++ e)%string])), w) ->
  String.length ("Error executing tool: " ++ e)%string <= 20000 ->
  dispatch_tool_call failing tc env = dispatch_tool_call returning tc env.
Proof.
  intros F R L. rewrite !dispatch_tool_call_eq, F, R.
  cbn [content_of_outcome]. rewrite parse_content_items.
  cbn [texts_of String.concat]. rewrite truncate_short by exact L.
  reflexivity.
Qed.

(** ** Scripted runs for the further properties *)

Module MoreRuns.
Import Scenario.

(** The model asks for a tool once and is unavailable afterwards. *)
Lemma model_failure_ends_run_witness :
  fst (run_audit (scripted_ainvoke [fetch]) tools 0)
  = Raised "model unavailable" /\
  last (invocations (snd (run_audit (scripted_ainvoke [fetch]) tools 0))) []
  = initial_messages
    ++ [AI fetch; ToolMessage "Hello" "call_1" "fetch_text"] /\
  existsb is_report (stdout (snd (run_audit (scripted_ainvoke [fetch]) tools 0)))
  = false.
Proof.
  destruct (model_failure_ends_run nat (scripted_ainvoke [fetch]) tools 0
              "model unavailable"
              (snd (run_audit (scripted_ainvoke [fetch]) tools 0)))
    as (_ & L & R & _).
  - reflexivity.
  - split; [reflexivity|]. split; [|exact R]. rewrite L. reflexivity.
Defined.

(** The model asks for a tool in all 10 iterations. *)
Lemma exhausted_run_witness :
  count_AI (messages (snd (run_audit (scripted_ainvoke never_done) tools 0)))
  = 10 /\
  existsb is_report
    (stdout (snd (run_audit (scripted_ainvoke never_done) tools 0))) = false.
Proof.
  destruct (exhausted_run nat (scripted_ainvoke never_done) tools 0 10
              (snd (run_audit (scripted_ainvoke never_done) tools 0)))
    as (_ & C & _ & R & _).
  - vm_compute. reflexivity.
  - now split.
Defined.

(** The model asks for a tool twice and then gives its report. *)
Lemma reported_run_witness :
  exists h out,
    messages (snd (run_audit (scripted_ainvoke [fetch; fetch; says "Done."])
                     tools 0))
    = h ++ [AI (says "Done.")] /\
    stdout (snd (run_audit (scripted_ainvoke [fetch; fetch; says "Done."])
                   tools 0))
    = out ++ [PReportBanner; PReport "Done."; PReportRule] /\
    existsb is_report out = false.
Proof.
  destruct (reported_run nat (scripted_ainvoke [fetch; fetch; says "Done."])
              tools 0 3
              (snd (run_audit (scripted_ainvoke [fetch; fetch; says "Done."])
                      tools 0)))
    as (h & response & out & tail & M & T & _ & _ & _ & S & R & _ & _ & E).
  - vm_compute. reflexivity.
  - assert (Q : response = says "Done.").
    { apply (f_equal (fun l => last l (SystemMessage ""))) in M.
      rewrite last_last in M. vm_compute in M. now injection M. }
    subst response. exists h, out. split; [exact M|]. split; [|exact R].
    rewrite S, E. reflexivity. unfold lt. repeat constructor.
Defined.

Lemma diagnostic_needs_all_iterations_witness :
  List.length
    (invocations (snd (run_audit (scripted_ainvoke never_done) tools 0)))
  = 10.
Proof.
  apply (diagnostic_needs_all_iterations nat (scripted_ainvoke never_done)
           tools 0).
  vm_compute. reflexivity.
Defined.

Lemma truncation_ignores_tail_witness :
  truncate (Str.repeat "a" 25000 ++ "</html>")%string
  = truncate (Str.repeat "a" 25000).
Proof.
  apply truncation_ignores_tail. apply Nat.ltb_lt. vm_compute. reflexivity.
Defined.

(** The tool [take_screenshot] returns one image. *)
Lemma content_without_text_is_empty_witness :
  dispatch_tool_call tools (call "call_2" "take_screenshot") env0
  = (Returned tt,
     mkEnv 0 (initial_messages ++ [ToolMessage "" "call_2" "take_screenshot"])
       [PStarting; PExecuting "take_screenshot"] []).
Proof.
  apply (content_without_text_is_empty nat tools env0
           (call "call_2" "take_screenshot")
           (mkCallToolResult (Some [ImageContent "iVBORw0KGgo=" "image/png"]))
           [ImageContent "iVBORw0KGgo=" "image/png"] 0);
    try reflexivity. discriminate.
Defined.

(** [click] raises with [tools] and returns the same text with
    [forging_tools]. *)
Lemma error_is_only_text_witness :
  dispatch_tool_call tools (call "call_2" "click") env0
  = dispatch_tool_call forging_tools (call "call_2" "click") env0.
Proof.
  apply (error_is_only_text tools forging_tools env0 (call "call_2" "click")
           "element not found" 0); try reflexivity.
  apply Nat.leb_le. vm_compute. reflexivity.
Defined.

End MoreRuns.
